(** * dogswatch: the node-update Intent of package [intent]

    A shallow embedding of [workspaces/dogswatch/pkg/intent/intent.go].

    The Go source manipulates strings: [marker.NodeAction], [marker.NodeState]
    and [marker.NodeUpdate] are aliases of [string] (their values are stored
    in a [map[string]string] and read back from one without conversion), so
    the embedding keeps them as strings and compares them with decidable
    equality, as [==] and [switch] do.

    Two parts of the repository the file relies on are not in [intent.go]:
    - package [marker], which declares the annotation keys and the action,
      state and update tokens.  The embedding takes them as the fields of the
      class [Marker]; the properties below hold for every choice of tokens
      that are pairwise distinct.
    - [calculateNext], the successor function of the progression.  The
      functions of [intent.go] take it as a section variable; the table that
      the specification describes is [Next]. *)

From stdpp Require Import base strings gmap list.

(** ** Package [marker] *)

Module marker.

Definition NodeAction : Type := string.
Definition NodeState : Type := string.
Definition NodeUpdate : Type := string.

End marker.

Import marker.

(** The constants of package [marker] that [intent.go] names.  The spelling
    [NodeActionStablize] is the one of the source. *)
Class Marker : Type := {
  (* annotation keys *)
  NodeActionWanted : string;
  NodeActionActive : string;
  NodeActionActiveState : string;
  UpdateAvailableKey : string;
  (* actions *)
  NodeActionUnknown : NodeAction;
  NodeActionReset : NodeAction;
  NodeActionStablize : NodeAction;
  NodeActionPrepareUpdate : NodeAction;
  NodeActionPerformUpdate : NodeAction;
  NodeActionRebootUpdate : NodeAction;
  (* states *)
  NodeStateUnknown : NodeState;
  NodeStateReady : NodeState;
  NodeStateError : NodeState;
  (* update availability *)
  NodeUpdateAvailable : NodeUpdate
}.

(** What the Go compiler and the enumeration demand of the constants: the
    keys of the map literal of [GetAnnotations] are distinct constants, the
    constant cases of the [switch] of [Waiting] (which lists [""]) are
    distinct, and the actions are six different tokens. *)
Record WellFormed `{M : Marker} : Prop := {
  keys_distinct :
    NoDup [NodeActionWanted; NodeActionActive; NodeActionActiveState;
           UpdateAvailableKey];
  states_distinct :
    NoDup [""; NodeStateUnknown; NodeStateReady; NodeStateError];
  actions_distinct :
    NoDup [NodeActionUnknown; NodeActionReset; NodeActionStablize;
           NodeActionPrepareUpdate; NodeActionPerformUpdate;
           NodeActionRebootUpdate]
}.

(** Go's [error] values, as far as this package produces them. *)
Inductive error : Type :=
| UnrecognizedAction (action : NodeAction).

(** ** Go maps of strings *)

(** [m[k]] on a [map[string]string]: the zero value [""] for a missing key. *)
Definition index (m : gmap string string) (k : string) : string :=
  default "" (m !! k).

(** ** The interface [Input]

    [Input] is [marker.Container] together with [GetName]; [Given] reads the
    annotations and the name. *)
Class Input (A : Type) : Type := {
  GetAnnotations : A -> gmap string string;
  GetName : A -> string
}.

(** ** The type [Intent] *)

Record Intent : Type := {
  NodeName : string;
  Wanted : NodeAction;
  Active : NodeAction;
  State : NodeState;
  UpdateAvailable : NodeUpdate
}.

(** Field assignments [i.Wanted = w], [i.Active = a], [i.State = s].  A
    pointer receiver that is mutated is always a fresh clone in this file, so
    an assignment is modelled by the record it leaves behind. *)
Definition set_Wanted (w : NodeAction) (i : Intent) : Intent :=
  {| NodeName := NodeName i; Wanted := w; Active := Active i;
     State := State i; UpdateAvailable := UpdateAvailable i |}.

Definition set_Active (a : NodeAction) (i : Intent) : Intent :=
  {| NodeName := NodeName i; Wanted := Wanted i; Active := a;
     State := State i; UpdateAvailable := UpdateAvailable i |}.

Definition set_State (s : NodeState) (i : Intent) : Intent :=
  {| NodeName := NodeName i; Wanted := Wanted i; Active := Active i;
     State := s; UpdateAvailable := UpdateAvailable i |}.

Section intent.
Context `{M : Marker}.

(** [calculateNext] belongs to package [intent] but not to [intent.go]: it
    returns the next action and an error, [None] standing for [nil]. *)
Variable calculateNext : NodeAction -> NodeAction * option error.

(** [func (i *Intent) GetName() string] *)
Definition Intent_GetName (i : Intent) : string := NodeName i.

(** [func (i *Intent) GetAnnotations() map[string]string] *)
Definition Intent_GetAnnotations (i : Intent) : gmap string string :=
  {[ NodeActionWanted := Wanted i;
     NodeActionActive := Active i;
     NodeActionActiveState := State i;
     UpdateAvailableKey := UpdateAvailable i ]}.

(** [func (i *Intent) GetLabels() map[string]string] *)
Definition Intent_GetLabels (i : Intent) : gmap string string :=
  {[ UpdateAvailableKey := UpdateAvailable i ]}.

(** [*Intent] implements [Input]. *)
#[export] Instance Intent_Input : Input Intent := {
  GetAnnotations := Intent_GetAnnotations;
  GetName := Intent_GetName
}.

(** [func Given(input Input) *Intent] *)
Definition Given {A : Type} `{Input A} (input : A) : Intent :=
  let annos := GetAnnotations input in
  {| NodeName := GetName input;
     Active := index annos NodeActionActive;
     Wanted := index annos NodeActionWanted;
     State := index annos NodeActionActiveState;
     UpdateAvailable := index annos UpdateAvailableKey |}.

(** [func (i Intent) Clone() *Intent]: [Given(&i)] on a copy of the
    receiver. *)
Definition Clone (i : Intent) : Intent := Given i.

(** [func (i *Intent) Waiting() bool]: the [switch] on [i.State], its cases
    tried in order. *)
Definition Waiting (i : Intent) : bool :=
  if bool_decide (State i = NodeStateReady) then true
  else if bool_decide (State i = "") || bool_decide (State i = NodeStateUnknown)
  then true
  else if bool_decide (State i = NodeStateError) then true
  else false.

(** [func (i *Intent) Intrusive() bool] *)
Definition Intrusive (i : Intent) : bool :=
  bool_decide (Wanted i = NodeActionRebootUpdate).

(** [func (i *Intent) Errored() bool] *)
Definition Errored (i : Intent) : bool :=
  bool_decide (State i = NodeStateError).

(** [func (i *Intent) Realized() bool] *)
Definition Realized (i : Intent) : bool :=
  let realized := bool_decide (Wanted i = Active i) in
  let successful := negb (Errored i) in
  realized && successful && Waiting i.

(** [func (i *Intent) isInProgress(field marker.NodeAction) bool] *)
Definition isInProgress (i : Intent) (field : NodeAction) : bool :=
  if bool_decide (field = NodeActionReset)
     || bool_decide (field = NodeActionStablize)
     || bool_decide (field = NodeActionPrepareUpdate)
     || bool_decide (field = NodeActionPerformUpdate)
     || bool_decide (field = NodeActionRebootUpdate)
  then true
  else false.

(** [func (i *Intent) HasUpdateAvailable() bool] *)
Definition HasUpdateAvailable (i : Intent) : bool :=
  bool_decide (UpdateAvailable i = NodeUpdateAvailable).

(** [func (i *Intent) inUnknownState() bool] *)
Definition inUnknownState (i : Intent) : bool :=
  bool_decide (State i = "") || bool_decide (State i = NodeStateUnknown).

(** [func (i *Intent) reset()] *)
Definition reset (i : Intent) : Intent :=
  set_State NodeStateUnknown
    (set_Active NodeActionUnknown (set_Wanted NodeActionUnknown i)).

(** [func (i *Intent) Projected() *Intent].  The assignment
    [p.Wanted, _ = calculateNext(p.Wanted)] stores the first result and
    drops the error. *)
Definition Projected (i : Intent) : Intent :=
  let p := Clone i in
  let p := if inUnknownState p then reset p else p in
  set_Wanted (fst (calculateNext (Wanted p))) p.

(** [func (i *Intent) projectActive() *Intent] *)
Definition projectActive (i : Intent) : Intent :=
  let prior := Clone i in
  let prior := set_Wanted (Active i) prior in
  Projected prior.

(** [func (i *Intent) InProgress() bool] *)
Definition InProgress (i : Intent) : bool :=
  let pendingNext :=
    negb (Realized i) && bool_decide (Wanted (projectActive i) = Wanted i) in
  isInProgress i (Active i) && pendingNext.

(** [func (i *Intent) Stuck() bool] *)
Definition Stuck (i : Intent) : bool :=
  let inconsistentProgress :=
    negb (bool_decide (Active i = Wanted i)) && negb (InProgress i) in
  let invalidProgress :=
    negb (bool_decide (Wanted i = Wanted (projectActive i))) in
  inconsistentProgress || invalidProgress.

(** [func (i *Intent) Terminal() bool] *)
Definition Terminal (i : Intent) : bool :=
  match calculateNext (Wanted i) with
  | (_, Some _) => false
  | (next, None) =>
      let atTerminal :=
        bool_decide (next = Wanted i) && bool_decide (Wanted i = Active i) in
      atTerminal
  end.

(** [func (i *Intent) Actionable() bool] *)
Definition Actionable (i : Intent) : bool :=
  let canProgress := (Waiting i || Realized i) && negb (Terminal i) in
  let unknown := inUnknownState i in
  let stuck := Stuck i in
  canProgress || unknown || stuck.

(** [func (i *Intent) Reset() *Intent] *)
Definition Reset (i : Intent) : Intent :=
  let p := Clone i in
  let p := reset p in
  Projected p.

End intent.

(** ** The Progression Table *)

Section progression.
Context `{M : Marker}.

(** Modelled from the spec: the forward-progression list of section 3,
    [[Reset, Stabilize, PrepareUpdate, PerformUpdate, RebootUpdate]]; the
    declaration is not in [intent.go]. *)
Definition progression : list NodeAction :=
  [NodeActionReset; NodeActionStablize; NodeActionPrepareUpdate;
   NodeActionPerformUpdate; NodeActionRebootUpdate].

(** The recognized Action enumeration: [Unknown] and the forward list. *)
Definition actions : list NodeAction := NodeActionUnknown :: progression.

(** The element that follows [action] in [l]; the last element is followed
    by itself. *)
Fixpoint following (action : NodeAction) (l : list NodeAction)
  : option NodeAction :=
  match l with
  | [] => None
  | a :: rest =>
      if bool_decide (a = action)
      then Some (match rest with b :: _ => b | [] => a end)
      else following action rest
  end.

(** Modelled from the spec: [calculateNext], which section 4.1 describes as
    [Next(action) -> (Action, error)], is not in [intent.go].  For [Unknown]
    it returns the first element of the forward-progression list, for an
    element of the list the following one, for the last element the element
    itself; for any other token it fails with [UnrecognizedAction] and
    returns the zero Action, the empty string. *)
Definition Next (action : NodeAction) : NodeAction * option error :=
  if bool_decide (action = NodeActionUnknown)
  then (hd "" progression, None)
  else match following action progression with
       | Some next => (next, None)
       | None => ("", Some (UnrecognizedAction action))
       end.

(** The successor of an action in a table [next]: defined when the lookup
    reports no error. *)
Definition successor (next : NodeAction -> NodeAction * option error)
    (action : NodeAction) : option NodeAction :=
  match next action with
  | (a, None) => Some a
  | (_, Some _) => None
  end.

End progression.

(** ** A set of tokens

    Modelled from the spec: the values of the constants are declared in
    package [marker], outside [intent.go].  This instance names every token
    as the specification does (sections 3 and 6); it serves to run the
    definitions on concrete Intents. *)
Definition tokens : Marker := {|
  NodeActionWanted := "wanted-action";
  NodeActionActive := "active-action";
  NodeActionActiveState := "active-state";
  UpdateAvailableKey := "update-available";
  NodeActionUnknown := "Unknown";
  NodeActionReset := "Reset";
  NodeActionStablize := "Stabilize";
  NodeActionPrepareUpdate := "PrepareUpdate";
  NodeActionPerformUpdate := "PerformUpdate";
  NodeActionRebootUpdate := "RebootUpdate";
  NodeStateUnknown := "Unknown";
  NodeStateReady := "Ready";
  NodeStateError := "Error";
  NodeUpdateAvailable := "Available"
|}.

(** An Intent of node ["node-a"] with no update flagged. *)
Definition intent_of (wanted active : NodeAction) (state : NodeState)
  : Intent :=
  {| NodeName := "node-a"; Wanted := wanted; Active := active;
     State := state; UpdateAvailable := "" |}.

(** An implementer of [Input] other than [*Intent]: a node as the cluster
    presents it to [Given], with its name and whatever annotations it
    carries.  It serves to run [Given] on maps that lack keys. *)
Record Node : Type := {
  node_name : string;
  node_annotations : gmap string string
}.

#[export] Instance Node_Input : Input Node := {
  GetAnnotations := node_annotations;
  GetName := node_name
}.

(** A node that carries a wanted action and nothing else. *)
Definition bare_node : Node :=
  {| node_name := "node-b";
     node_annotations := {[ "wanted-action" := "Reset" ]} |}.

(** A node that was never annotated. *)
Definition fresh_node : Node :=
  {| node_name := "node-c"; node_annotations := ∅ |}.

(** * Properties *)

Lemma tokens_WellFormed : WellFormed (M := tokens).
Proof. split; apply (bool_decide_unpack _); vm_compute; exact I. Qed.

(** Turns the three [NoDup] facts of [wf] into the inequalities between the
    constants. *)
Ltac distinct wf :=
  pose proof (keys_distinct wf);
  pose proof (states_distinct wf);
  pose proof (actions_distinct wf);
  repeat match goal with
  | Hd : NoDup (_ :: _) |- _ => apply NoDup_cons in Hd as [? ?]
  | Hd : _ ∉ _ :: _ |- _ => apply not_elem_of_cons in Hd as [? ?]
  | Hd : NoDup [] |- _ => clear Hd
  | Hd : _ ∉ [] |- _ => clear Hd
  end.

(** Case analysis on every comparison of the goal. *)
Ltac compare_all :=
  repeat (case_bool_decide; simplify_eq/=); try done; try congruence.

Section properties.
Context `{M : Marker}.
Hypothesis wf : WellFormed.

(** ** Serialization *)

Lemma index_Wanted (i : Intent) :
  index (Intent_GetAnnotations i) NodeActionWanted = Wanted i.
Proof. distinct wf. unfold index, Intent_GetAnnotations. by simplify_map_eq. Qed.

Lemma index_Active (i : Intent) :
  index (Intent_GetAnnotations i) NodeActionActive = Active i.
Proof. distinct wf. unfold index, Intent_GetAnnotations. by simplify_map_eq. Qed.

Lemma index_State (i : Intent) :
  index (Intent_GetAnnotations i) NodeActionActiveState = State i.
Proof. distinct wf. unfold index, Intent_GetAnnotations. by simplify_map_eq. Qed.

Lemma index_UpdateAvailable (i : Intent) :
  index (Intent_GetAnnotations i) UpdateAvailableKey = UpdateAvailable i.
Proof. distinct wf. unfold index, Intent_GetAnnotations. by simplify_map_eq. Qed.

Lemma Clone_id (i : Intent) : Clone i = i.
Proof.
  unfold Clone, Given; simpl.
  rewrite index_Wanted, index_Active, index_State, index_UpdateAvailable.
  by destruct i.
Qed.

(** C2. Serialization round trip: building an Intent with [Given] from an
    input that has the name of [i] and the annotations [i.GetAnnotations()]
    gives back the Wanted, Active, State and UpdateAvailable of [i] (and its
    name). *)
Theorem Given_GetAnnotations_roundtrip
    {A : Type} `{Input A} (input : A) (i : Intent) :
  GetName input = NodeName i ->
  GetAnnotations input = Intent_GetAnnotations i ->
  Wanted (Given input) = Wanted i /\
  Active (Given input) = Active i /\
  State (Given input) = State i /\
  UpdateAvailable (Given input) = UpdateAvailable i /\
  NodeName (Given input) = NodeName i.
Proof.
  intros Hname Hannos. unfold Given; simpl. rewrite Hannos, Hname.
  auto using index_Wanted, index_Active, index_State, index_UpdateAvailable.
Qed.

(** ** The Progression Table *)

Lemma Next_Unknown : Next NodeActionUnknown = (NodeActionReset, None).
Proof. unfold Next. by rewrite bool_decide_eq_true_2. Qed.

Lemma Next_Reset : Next NodeActionReset = (NodeActionStablize, None).
Proof. distinct wf. unfold Next; simpl. compare_all. Qed.

Lemma Next_Stablize :
  Next NodeActionStablize = (NodeActionPrepareUpdate, None).
Proof. distinct wf. unfold Next; simpl. compare_all. Qed.

Lemma Next_PrepareUpdate :
  Next NodeActionPrepareUpdate = (NodeActionPerformUpdate, None).
Proof. distinct wf. unfold Next; simpl. compare_all. Qed.

Lemma Next_PerformUpdate :
  Next NodeActionPerformUpdate = (NodeActionRebootUpdate, None).
Proof. distinct wf. unfold Next; simpl. compare_all. Qed.

Lemma Next_RebootUpdate :
  Next NodeActionRebootUpdate = (NodeActionRebootUpdate, None).
Proof. distinct wf. unfold Next; simpl. compare_all. Qed.

Lemma Next_unrecognized (action : NodeAction) :
  action ∉ actions -> Next action = ("", Some (UnrecognizedAction action)).
Proof.
  unfold actions, progression. rewrite !not_elem_of_cons. intros Hout.
  destruct_and?. unfold Next; simpl. compare_all.
Qed.

(** ** Projection *)

Section projection.
Variable calculateNext : NodeAction -> NodeAction * option error.

Lemma inUnknownState_iff (i : Intent) :
  inUnknownState i = true <-> State i = "" \/ State i = NodeStateUnknown.
Proof.
  unfold inUnknownState. rewrite orb_true_iff, !bool_decide_eq_true. tauto.
Qed.

Lemma inUnknownState_false (i : Intent) :
  State i <> "" -> State i <> NodeStateUnknown -> inUnknownState i = false.
Proof.
  intros. apply not_true_is_false. rewrite inUnknownState_iff. tauto.
Qed.

Lemma Projected_known (i : Intent) :
  inUnknownState i = false ->
  Projected calculateNext i = set_Wanted (fst (calculateNext (Wanted i))) i.
Proof. intros Hk. unfold Projected. by rewrite Clone_id, Hk. Qed.

Lemma Projected_unknown (i : Intent) :
  inUnknownState i = true ->
  Projected calculateNext i =
  set_Wanted (fst (calculateNext NodeActionUnknown)) (reset i).
Proof. intros Hu. unfold Projected. by rewrite Clone_id, Hu. Qed.

Lemma inUnknownState_reset (i : Intent) : inUnknownState (reset i) = true.
Proof. apply inUnknownState_iff. by right. Qed.

(** C7. The frame of [Projected]: when State is neither [""] nor Unknown,
    the projection has the Active, State, UpdateAvailable and NodeName of the
    original Intent, whatever the progression table is. *)
Theorem Projected_frame (i : Intent) :
  State i <> "" -> State i <> NodeStateUnknown ->
  Active (Projected calculateNext i) = Active i /\
  State (Projected calculateNext i) = State i /\
  UpdateAvailable (Projected calculateNext i) = UpdateAvailable i /\
  NodeName (Projected calculateNext i) = NodeName i.
Proof.
  intros Hempty Hunknown.
  by rewrite Projected_known by by apply inUnknownState_false.
Qed.

(** C3, first half, for any table: [Terminal] holds exactly when the
    successor of Wanted is Wanted and Wanted is Active. *)
Lemma Terminal_iff (i : Intent) :
  Terminal calculateNext i = true <->
  successor calculateNext (Wanted i) = Some (Wanted i) /\ Wanted i = Active i.
Proof.
  unfold Terminal, successor.
  destruct (calculateNext (Wanted i)) as [next [err|]].
  - split; [done | by intros [? _]].
  - rewrite andb_true_iff, !bool_decide_eq_true. split.
    + by intros [-> ?].
    + by intros [[= ->] ?].
Qed.

(** A realized Intent in a known state is stuck as soon as the table moves
    its Active action forward: Wanted, equal to Active, is then not the step
    after Active. *)
Lemma Realized_Stuck_of_advancing (i : Intent) :
  inUnknownState i = false -> Realized i = true ->
  fst (calculateNext (Active i)) <> Active i ->
  Stuck calculateNext i = true.
Proof.
  intros Hk Hr Hadv. unfold Realized in Hr.
  apply andb_true_iff in Hr as [[Hwa%bool_decide_eq_true _]%andb_true_iff _].
  unfold Stuck, projectActive. rewrite Clone_id, Projected_known by done.
  simpl. rewrite Hwa.
  rewrite (bool_decide_eq_false_2 (Active i = fst _)) by congruence.
  apply orb_true_r.
Qed.

End projection.

(** ** Projection along the table of the specification *)

Lemma projectActive_known (i : Intent) :
  inUnknownState i = false ->
  Wanted (projectActive Next i) = fst (Next (Active i)).
Proof.
  intros Hk. unfold projectActive. rewrite Clone_id.
  by rewrite Projected_known.
Qed.

Lemma projectActive_unknown (i : Intent) :
  inUnknownState i = true ->
  Wanted (projectActive Next i) = NodeActionReset.
Proof.
  intros Hu. unfold projectActive. rewrite Clone_id.
  rewrite Projected_unknown by done. by rewrite Next_Unknown.
Qed.

(** ** The scenarios and laws of the specification *)

(** The Intent that has finished PerformUpdate is realized, and [Stuck]
    reports it: the step after Active is RebootUpdate, not Wanted. *)
Lemma Realized_PerformUpdate_Stuck (name : string) (upd : NodeUpdate) :
  let i := {| NodeName := name; Wanted := NodeActionPerformUpdate;
              Active := NodeActionPerformUpdate; State := NodeStateReady;
              UpdateAvailable := upd |} in
  Realized i = true /\ Stuck Next i = true /\ Terminal Next i = false.
Proof.
  distinct wf. intros i.
  assert (inUnknownState i = false) as Hk by by apply inUnknownState_false.
  split_and!.
  - unfold Realized, Errored, Waiting; simpl. compare_all.
  - unfold Stuck. rewrite projectActive_known by done. simpl.
    rewrite Next_PerformUpdate. simpl. compare_all.
  - unfold Terminal; simpl. rewrite Next_PerformUpdate. compare_all.
Qed.

(** C3. [Terminal] is true exactly when the successor of Wanted in the
    Progression Table is Wanted itself and Wanted equals Active; the Intent
    that has finished RebootUpdate is realized, terminal and not
    actionable. *)
Theorem Terminal_iff_successor :
  (forall i : Intent,
     Terminal Next i = true <->
     successor Next (Wanted i) = Some (Wanted i) /\ Wanted i = Active i) /\
  (forall (name : string) (upd : NodeUpdate),
     let i := {| NodeName := name; Wanted := NodeActionRebootUpdate;
                 Active := NodeActionRebootUpdate; State := NodeStateReady;
                 UpdateAvailable := upd |} in
     Realized i = true /\ Terminal Next i = true /\
     Actionable Next i = false).
Proof.
  split; [apply Terminal_iff |].
  distinct wf. intros name upd i.
  assert (inUnknownState i = false) as Hk by by apply inUnknownState_false.
  assert (Realized i = true) as Hr.
  { unfold Realized, Errored, Waiting; simpl. compare_all. }
  assert (Terminal Next i = true) as Ht.
  { unfold Terminal; simpl. rewrite Next_RebootUpdate. compare_all. }
  split_and!; [done | done |].
  unfold Actionable, Stuck. rewrite Hr, Ht, Hk.
  rewrite projectActive_known by done. simpl.
  rewrite Next_RebootUpdate. simpl. compare_all.
  by rewrite andb_false_r.
Qed.

(** C4, as the code has it.  For an Intent whose Wanted is outside the
    recognized actions, [Terminal] is false.  [Projected] stores what the
    failed lookup returns: when State is neither [""] nor Unknown, Wanted
    becomes the zero Action [""] and the other fields stay; when State is
    [""] or Unknown the Intent is reset first and Wanted becomes Reset. *)
Theorem Projected_unrecognized (i : Intent) :
  Wanted i ∉ actions ->
  Terminal Next i = false /\
  (inUnknownState i = false -> Projected Next i = set_Wanted "" i) /\
  (inUnknownState i = true ->
   Projected Next i = set_Wanted NodeActionReset (reset i)).
Proof.
  intros Hout. split_and!.
  - unfold Terminal. by rewrite Next_unrecognized.
  - intros Hk. rewrite Projected_known by done.
    by rewrite Next_unrecognized.
  - intros Hu. rewrite Projected_unknown by done. by rewrite Next_Unknown.
Qed.

(** C5. The unset Intent (Wanted = Active = Unknown, State = [""]) is
    waiting and actionable, and its projection wants Reset, the first
    element of the forward-progression list. *)
Theorem unset_Intent_projects_to_Reset (name : string) (upd : NodeUpdate) :
  let i := {| NodeName := name; Wanted := NodeActionUnknown;
              Active := NodeActionUnknown; State := "";
              UpdateAvailable := upd |} in
  Waiting i = true /\ Actionable Next i = true /\
  Wanted (Projected Next i) = NodeActionReset /\
  head progression = Some NodeActionReset.
Proof.
  intros i.
  assert (inUnknownState i = true) as Hu by (apply inUnknownState_iff; by left).
  split_and!.
  - unfold Waiting; simpl. compare_all.
  - unfold Actionable. rewrite Hu. by rewrite orb_true_r.
  - rewrite Projected_unknown by done. by rewrite Next_Unknown.
  - done.
Qed.

(** C6. [Reset] returns, for every Intent, an Intent whose Wanted is Reset
    (the first element of the forward-progression list), whose Active is
    Unknown and whose State is Unknown. *)
Theorem Reset_origin (i : Intent) :
  Wanted (Reset Next i) = NodeActionReset /\
  Active (Reset Next i) = NodeActionUnknown /\
  State (Reset Next i) = NodeStateUnknown.
Proof.
  unfold Reset. rewrite Clone_id.
  rewrite Projected_unknown by apply inUnknownState_reset.
  by rewrite Next_Unknown.
Qed.

(** C8. The Intent with Wanted = RebootUpdate, Active = PrepareUpdate and
    State = Error is errored, waiting and stuck; and [Waiting] is true
    exactly when State is Ready, [""], Unknown or Error. *)
Theorem Waiting_iff_and_errored_scenario :
  (forall (name : string) (upd : NodeUpdate),
     let i := {| NodeName := name; Wanted := NodeActionRebootUpdate;
                 Active := NodeActionPrepareUpdate; State := NodeStateError;
                 UpdateAvailable := upd |} in
     Errored i = true /\ Waiting i = true /\ Stuck Next i = true) /\
  (forall i : Intent,
     Waiting i = true <->
     State i = NodeStateReady \/ State i = "" \/
     State i = NodeStateUnknown \/ State i = NodeStateError).
Proof.
  split.
  - distinct wf. intros name upd i.
    assert (inUnknownState i = false) as Hk by by apply inUnknownState_false.
    split_and!.
    + unfold Errored; simpl. compare_all.
    + unfold Waiting; simpl. compare_all.
    + unfold Stuck. rewrite projectActive_known by done. simpl.
      rewrite Next_PrepareUpdate. simpl.
      rewrite (bool_decide_eq_false_2 (_ = NodeActionPerformUpdate)) by done.
      apply orb_true_r.
  - intros i. unfold Waiting. split.
    + repeat case_bool_decide; simpl; intros; try done; tauto.
    + intros [-> | [-> | [-> | ->]]]; compare_all.
Qed.

(** C9. The completely unset Intent (Wanted = Active = Unknown,
    State = [""]) is realized. *)
Theorem unset_Intent_Realized (name : string) (upd : NodeUpdate) :
  Realized {| NodeName := name; Wanted := NodeActionUnknown;
              Active := NodeActionUnknown; State := "";
              UpdateAvailable := upd |} = true.
Proof.
  distinct wf. unfold Realized, Errored, Waiting; simpl. compare_all.
Qed.

(** C10. When State is [""] or Unknown, the projection from Active wants
    Reset whatever Active is; such an Intent is stuck as soon as its Wanted
    is not Reset. *)
Theorem unknown_state_projectActive (i : Intent) :
  State i = "" \/ State i = NodeStateUnknown ->
  Wanted (projectActive Next i) = NodeActionReset /\
  (Wanted i <> NodeActionReset -> Stuck Next i = true).
Proof.
  intros Hu%inUnknownState_iff.
  pose proof (projectActive_unknown i Hu) as Hp. split; [done |].
  intros Hw. unfold Stuck. rewrite Hp.
  rewrite (bool_decide_eq_false_2 (Wanted i = NodeActionReset)) by done.
  apply orb_true_r.
Qed.

End properties.

(** * Further properties of [intent.go]

    Everything in this section is read off the source alone: it holds for
    every [calculateNext]. *)

Section further.
Context `{M : Marker}.
Hypothesis wf : WellFormed.
Variable calculateNext : NodeAction -> NodeAction * option error.

Lemma Wanted_projectActive (i : Intent) :
  Wanted (projectActive calculateNext i) =
  fst (calculateNext
         (if inUnknownState i then NodeActionUnknown else Active i)).
Proof.
  unfold projectActive. rewrite (Clone_id wf).
  destruct (inUnknownState i) eqn:Hu.
  - by rewrite (Projected_unknown wf) by done.
  - by rewrite (Projected_known wf) by done.
Qed.

Lemma Realized_inv (i : Intent) :
  Realized i = true ->
  Wanted i = Active i /\ Errored i = false /\ Waiting i = true.
Proof.
  unfold Realized. rewrite !andb_true_iff, negb_true_iff, bool_decide_eq_true.
  tauto.
Qed.

Lemma isInProgress_Unknown (i : Intent) :
  isInProgress i NodeActionUnknown = false.
Proof. distinct wf. unfold isInProgress. compare_all. Qed.

Lemma Stuck_false_spec (i : Intent) :
  Stuck calculateNext i = false <->
  Wanted i = Wanted (projectActive calculateNext i) /\
  (Active i = Wanted i \/ isInProgress i (Active i) = true).
Proof.
  unfold Stuck, InProgress.
  rewrite orb_false_iff, negb_false_iff, bool_decide_eq_true.
  split.
  - intros [Hinc Hw]. split; [done |].
    rewrite <- Hw in Hinc.
    rewrite (bool_decide_eq_true_2 (Wanted i = Wanted i)) in Hinc by done.
    destruct (decide (Active i = Wanted i)) as [Heq | Hne]; [by left | right].
    rewrite (bool_decide_eq_false_2 (Active i = Wanted i)) in Hinc by done.
    assert (Realized i = false) as Hr.
    { apply not_true_is_false. intros [? _]%Realized_inv. congruence. }
    rewrite Hr in Hinc. simpl in Hinc.
    rewrite andb_true_r in Hinc. by apply negb_false_iff in Hinc.
  - intros [Hw Hor]. split; [| done].
    rewrite <- Hw.
    rewrite (bool_decide_eq_true_2 (Wanted i = Wanted i)) by done.
    destruct Hor as [Heq | Hact].
    + by rewrite (bool_decide_eq_true_2 (Active i = Wanted i)) by done.
    + destruct (decide (Active i = Wanted i)) as [Heq | Hne].
      * by rewrite (bool_decide_eq_true_2 (Active i = Wanted i)) by done.
      * assert (Realized i = false) as Hr.
        { apply not_true_is_false. intros [? _]%Realized_inv. congruence. }
        rewrite Hr, Hact.
        by rewrite (bool_decide_eq_false_2 (Active i = Wanted i)) by done.
Qed.

Lemma Actionable_split (i : Intent) :
  Actionable calculateNext i =
  (Waiting i && negb (Terminal calculateNext i))
  || inUnknownState i || Stuck calculateNext i.
Proof.
  unfold Actionable.
  destruct (Waiting i) eqn:Hw; [done |].
  destruct (Realized i) eqn:Hr; [| done].
  apply Realized_inv in Hr as (_ & _ & Hr). congruence.
Qed.

Lemma Projected_unknown_Reset (i : Intent) :
  inUnknownState i = true ->
  Projected calculateNext i = Reset calculateNext i.
Proof.
  intros Hu. unfold Reset. rewrite (Clone_id wf).
  rewrite !(Projected_unknown wf), ?Hu; by try apply inUnknownState_reset.
Qed.

(** X1. [Clone] returns an Intent equal to its receiver in every field,
    although it is rebuilt from the annotation map. *)
Theorem Clone_copies_every_field (i : Intent) : Clone i = i.
Proof. apply (Clone_id wf). Qed.

(** X2. [Given] on an input without the active-state annotation yields an
    Intent with State [""]: it is in the unknown state, waiting, not errored
    and actionable. *)
Theorem Given_missing_state {A : Type} `{Input A} (input : A) :
  GetAnnotations input !! NodeActionActiveState = None ->
  State (Given input) = "" /\
  inUnknownState (Given input) = true /\
  Waiting (Given input) = true /\
  Errored (Given input) = false /\
  Actionable calculateNext (Given input) = true.
Proof.
  intros Hmiss. distinct wf.
  assert (State (Given input) = "") as Hs.
  { unfold Given, index; simpl. by rewrite Hmiss. }
  assert (inUnknownState (Given input) = true) as Hu.
  { apply inUnknownState_iff. by left. }
  split_and!; [done | done | | |].
  - unfold Waiting. rewrite Hs. compare_all.
  - unfold Errored. rewrite Hs. compare_all.
  - unfold Actionable. rewrite Hu. by rewrite orb_true_r.
Qed.

(** X3. [Given] on an input that carries no annotation at all yields the
    Intent whose Wanted, Active, State and UpdateAvailable are all [""];
    that Intent is realized and actionable. *)
Theorem Given_no_annotations {A : Type} `{Input A} (input : A) :
  GetAnnotations input = ∅ ->
  Given input = {| NodeName := GetName input; Wanted := ""; Active := "";
                   State := ""; UpdateAvailable := "" |} /\
  Realized (Given input) = true /\
  Actionable calculateNext (Given input) = true.
Proof.
  intros Hempty. distinct wf.
  assert (Given input = {| NodeName := GetName input; Wanted := "";
                           Active := ""; State := "";
                           UpdateAvailable := "" |}) as ->.
  { unfold Given, index. by rewrite Hempty, !lookup_empty. }
  split_and!; [done | |].
  - unfold Realized, Errored, Waiting; simpl. compare_all.
  - unfold Actionable.
    rewrite (proj2 (inUnknownState_iff _)) by by left.
    by rewrite orb_true_r.
Qed.

(** X4. The labels of an Intent are part of its annotations: every label is
    an annotation with the same value; the annotations have exactly four
    entries and the labels one. *)
Theorem GetLabels_subseteq_GetAnnotations (i : Intent) :
  Intent_GetLabels i ⊆ Intent_GetAnnotations i /\
  size (Intent_GetAnnotations i) = 4 /\
  size (Intent_GetLabels i) = 1.
Proof.
  distinct wf. unfold Intent_GetLabels, Intent_GetAnnotations. split_and!.
  - apply map_subseteq_spec. intros k v [<- <-]%lookup_singleton_Some.
    by simplify_map_eq.
  - rewrite !map_size_insert_None, map_size_singleton; [done | ..];
      by simplify_map_eq.
  - apply map_size_singleton.
Qed.

(** X5. [Realized] holds exactly when Wanted equals Active and State is
    Ready, [""] or Unknown. *)
Theorem Realized_iff (i : Intent) :
  Realized i = true <->
  Wanted i = Active i /\
  (State i = NodeStateReady \/ State i = "" \/ State i = NodeStateUnknown).
Proof.
  distinct wf. unfold Realized, Errored, Waiting. split.
  - intros Hr. repeat case_bool_decide; simplify_eq/=; tauto.
  - intros [-> [-> | [-> | ->]]]; compare_all.
Qed.

(** X6. An errored Intent is waiting and is never realized. *)
Theorem Errored_Waiting_not_Realized (i : Intent) :
  Errored i = true -> Waiting i = true /\ Realized i = false.
Proof.
  unfold Realized, Waiting, Errored. intros ->%bool_decide_eq_true.
  rewrite (bool_decide_eq_true_2 (NodeStateError = NodeStateError)) by done.
  split.
  - by repeat case_bool_decide.
  - simpl. by rewrite andb_false_r.
Qed.

(** X7. An Intent in progress is neither realized nor stuck. *)
Theorem InProgress_not_Stuck (i : Intent) :
  InProgress calculateNext i = true ->
  Realized i = false /\ Stuck calculateNext i = false.
Proof.
  intros Hp. pose proof Hp as Hq. unfold InProgress in Hq.
  rewrite !andb_true_iff, negb_true_iff, bool_decide_eq_true in Hq.
  destruct Hq as (_ & Hr & Hw). split; [done |].
  unfold Stuck. rewrite Hp, Hw.
  rewrite (bool_decide_eq_true_2 (Wanted i = Wanted i)) by done.
  simpl. by rewrite andb_false_r.
Qed.

(** X8. [Stuck] is false exactly when Wanted is the Wanted of the
    projection from Active and, besides, Active equals Wanted or Active is
    an action that can make progress. *)
Theorem Stuck_false_iff (i : Intent) :
  Stuck calculateNext i = false <->
  Wanted i = Wanted (projectActive calculateNext i) /\
  (Active i = Wanted i \/ isInProgress i (Active i) = true).
Proof. apply Stuck_false_spec. Qed.

(** X9. In [Actionable] the test of [Realized] is redundant, a realized
    Intent being a waiting one: an Intent is actionable exactly when it is
    waiting and not terminal, or in the unknown state, or stuck. *)
Theorem Actionable_without_Realized (i : Intent) :
  Actionable calculateNext i =
  (Waiting i && negb (Terminal calculateNext i))
  || inUnknownState i || Stuck calculateNext i.
Proof. apply Actionable_split. Qed.

(** X10. A terminal Intent whose State is neither [""] nor Unknown is not
    stuck and not actionable. *)
Theorem Terminal_known_not_Actionable (i : Intent) :
  Terminal calculateNext i = true -> inUnknownState i = false ->
  Stuck calculateNext i = false /\ Actionable calculateNext i = false.
Proof.
  intros Ht Hk.
  assert (Stuck calculateNext i = false) as Hs.
  { apply Stuck_false_spec. rewrite Wanted_projectActive, Hk.
    apply Terminal_iff in Ht as [Hsucc Hwa]. unfold successor in Hsucc.
    rewrite <- Hwa. split; [| by left].
    destruct (calculateNext (Wanted i)) as [next [err |]]; [done |].
    by simplify_eq/=. }
  split; [done |].
  rewrite Actionable_split, Ht, Hk, Hs.
  by rewrite andb_false_r.
Qed.

(** X11. In the unknown state [Projected] is [Reset]: as long as State is
    [""] or Unknown, a projection goes back to the origin. *)
Theorem Projected_unknown_is_Reset (i : Intent) :
  inUnknownState i = true ->
  Projected calculateNext i = Reset calculateNext i.
Proof. apply Projected_unknown_Reset. Qed.

(** X12. [Reset] is idempotent, and [Projected] does not move the Intent
    that [Reset] returns. *)
Theorem Reset_idempotent (i : Intent) :
  Reset calculateNext (Reset calculateNext i) = Reset calculateNext i /\
  Projected calculateNext (Reset calculateNext i) = Reset calculateNext i.
Proof.
  assert (Reset calculateNext i =
          set_Wanted (fst (calculateNext NodeActionUnknown)) (reset i))
    as Hr.
  { unfold Reset. rewrite (Clone_id wf).
    by rewrite (Projected_unknown wf) by apply inUnknownState_reset. }
  assert (Reset calculateNext (Reset calculateNext i) =
          Reset calculateNext i) as Hi.
  { rewrite Hr. unfold Reset at 1. rewrite (Clone_id wf).
    by rewrite (Projected_unknown wf) by apply inUnknownState_reset. }
  split; [done |].
  rewrite Projected_unknown_Reset; [done |].
  rewrite Hr. apply inUnknownState_iff. by right.
Qed.

(** X13. The Intent that [Reset] returns is waiting, and it is stuck
    exactly when the step after Unknown is not Unknown itself. *)
Theorem Reset_result_Stuck_iff (i : Intent) :
  Waiting (Reset calculateNext i) = true /\
  (Stuck calculateNext (Reset calculateNext i) = true <->
   fst (calculateNext NodeActionUnknown) <> NodeActionUnknown).
Proof.
  assert (Reset calculateNext i =
          set_Wanted (fst (calculateNext NodeActionUnknown)) (reset i))
    as ->.
  { unfold Reset. rewrite (Clone_id wf).
    by rewrite (Projected_unknown wf) by apply inUnknownState_reset. }
  set (r := set_Wanted _ _).
  assert (inUnknownState r = true) as Hu by (apply inUnknownState_iff; by right).
  split.
  - unfold Waiting; simpl. compare_all.
  - rewrite <- not_false_iff_true, Stuck_false_spec.
    rewrite Wanted_projectActive, Hu. simpl.
    rewrite isInProgress_Unknown. split.
    + intros Hs Heq. apply Hs. split; [done | by left].
    + intros Hne [_ [Heq | ?]]; [by apply Hne | done].
Qed.

(** X14. [Projected] and [Reset] keep the name of the node and its
    UpdateAvailable, whatever the State is; so they keep
    [HasUpdateAvailable]. *)
Theorem Projected_Reset_keep_identity (i : Intent) :
  NodeName (Projected calculateNext i) = NodeName i /\
  UpdateAvailable (Projected calculateNext i) = UpdateAvailable i /\
  HasUpdateAvailable (Projected calculateNext i) = HasUpdateAvailable i /\
  NodeName (Reset calculateNext i) = NodeName i /\
  UpdateAvailable (Reset calculateNext i) = UpdateAvailable i /\
  HasUpdateAvailable (Reset calculateNext i) = HasUpdateAvailable i.
Proof.
  assert (Reset calculateNext i =
          set_Wanted (fst (calculateNext NodeActionUnknown)) (reset i))
    as ->.
  { unfold Reset. rewrite (Clone_id wf).
    by rewrite (Projected_unknown wf) by apply inUnknownState_reset. }
  destruct (inUnknownState i) eqn:Hu.
  - by rewrite (Projected_unknown wf) by done.
  - by rewrite (Projected_known wf) by done.
Qed.

(** X15. The predicates look at Wanted, Active and State only: two Intents
    that agree on these three fields get the same answers, whatever their
    names and UpdateAvailable are. *)
Theorem predicates_ignore_identity (i j : Intent) :
  Wanted i = Wanted j -> Active i = Active j -> State i = State j ->
  Waiting i = Waiting j /\
  Realized i = Realized j /\
  InProgress calculateNext i = InProgress calculateNext j /\
  Stuck calculateNext i = Stuck calculateNext j /\
  Terminal calculateNext i = Terminal calculateNext j /\
  Actionable calculateNext i = Actionable calculateNext j.
Proof.
  intros Hw Ha Hs.
  assert (Waiting i = Waiting j) as HW by (unfold Waiting; by rewrite Hs).
  assert (Realized i = Realized j) as HR.
  { unfold Realized, Errored. by rewrite HW, Hw, Ha, Hs. }
  assert (inUnknownState i = inUnknownState j) as HU.
  { unfold inUnknownState. by rewrite Hs. }
  assert (Wanted (projectActive calculateNext i) =
          Wanted (projectActive calculateNext j)) as HP.
  { by rewrite !Wanted_projectActive, HU, Ha. }
  assert (InProgress calculateNext i = InProgress calculateNext j) as HI.
  { unfold InProgress, isInProgress. by rewrite HR, HP, Hw, Ha. }
  assert (Stuck calculateNext i = Stuck calculateNext j) as HS.
  { unfold Stuck. by rewrite HI, HP, Hw, Ha. }
  assert (Terminal calculateNext i = Terminal calculateNext j) as HT.
  { unfold Terminal. by rewrite Hw, Ha. }
  split_and!; try done.
  unfold Actionable. by rewrite HW, HR, HT, HU, HS.
Qed.

(** X16. A realized Intent is not stuck exactly when the step after its
    Wanted -- after Unknown, when State is [""] or Unknown -- is Wanted
    itself. *)
Theorem Realized_Stuck_false_iff (i : Intent) :
  Realized i = true ->
  (Stuck calculateNext i = false <->
   fst (calculateNext
          (if inUnknownState i then NodeActionUnknown else Wanted i)) =
   Wanted i).
Proof.
  intros [Hwa _]%Realized_inv.
  rewrite Stuck_false_spec, Wanted_projectActive, <- Hwa. split.
  - by intros [Hw _].
  - intros Hw. split; [done | by left].
Qed.

End further.

(** * The definitions at work on the tokens of the specification *)

#[local] Existing Instance tokens.

(** C1. The Intent with Wanted = Active = PerformUpdate and State = Ready is
    realized and not terminal, and [Stuck] returns true on it: a realized
    Intent can be stuck. *)
Theorem Realized_Intent_is_Stuck :
  let i := intent_of "PerformUpdate" "PerformUpdate" "Ready" in
  Realized i = true /\ Stuck Next i = true /\ Terminal Next i = false.
Proof. apply (Realized_PerformUpdate_Stuck tokens_WellFormed). Qed.

Lemma Given_GetAnnotations_roundtrip_witness :
  let i := intent_of "PerformUpdate" "PrepareUpdate" "busy" in
  WellFormed /\ GetName i = NodeName i /\
  GetAnnotations i = Intent_GetAnnotations i /\
  Wanted (Given i) = "PerformUpdate" /\
  Active (Given i) = "PrepareUpdate" /\
  State (Given i) = "busy" /\
  UpdateAvailable (Given i) = "" /\
  NodeName (Given i) = "node-a".
Proof.
  intros i. split; [exact tokens_WellFormed |].
  split; [reflexivity |]. split; [reflexivity |].
  apply (Given_GetAnnotations_roundtrip tokens_WellFormed i i); reflexivity.
Defined.

Lemma Terminal_iff_successor_witness :
  let i := intent_of "RebootUpdate" "RebootUpdate" "Ready" in
  WellFormed /\
  (Terminal Next i = true <->
   successor Next (Wanted i) = Some (Wanted i) /\ Wanted i = Active i) /\
  Realized i = true /\ Terminal Next i = true /\ Actionable Next i = false.
Proof.
  intros i. split; [exact tokens_WellFormed |].
  destruct (Terminal_iff_successor tokens_WellFormed) as [Hiff Hscenario].
  split; [apply Hiff | apply (Hscenario "node-a" "")].
Defined.

(** C4, as the specification states it, fails: on an Intent in state Ready
    whose Wanted is the unrecognized token ["bogus"], [Projected] does not
    keep the Wanted of the clone. *)
Lemma Projected_unrecognized_changes_Wanted :
  let i := intent_of "bogus" "PerformUpdate" "Ready" in
  (Wanted i ∉ actions) /\
  inUnknownState (Clone i) = false /\
  Wanted (Projected Next i) <> Wanted (Clone i).
Proof.
  intros i. split_and!.
  - apply (bool_decide_unpack _). vm_compute. exact I.
  - vm_compute. reflexivity.
  - vm_compute. discriminate.
Qed.

Lemma Projected_unrecognized_witness :
  let i := intent_of "bogus" "PerformUpdate" "Ready" in
  WellFormed /\ (Wanted i ∉ actions) /\
  Terminal Next i = false /\
  (inUnknownState i = false -> Projected Next i = set_Wanted "" i) /\
  (inUnknownState i = true -> Projected Next i = set_Wanted "Reset" (reset i)).
Proof.
  intros i.
  assert (Wanted i ∉ actions) as Hout.
  { apply (bool_decide_unpack _). vm_compute. exact I. }
  split; [exact tokens_WellFormed |]. split; [exact Hout |].
  apply (Projected_unrecognized tokens_WellFormed i Hout).
Defined.

Lemma unset_Intent_projects_to_Reset_witness :
  let i := intent_of "Unknown" "Unknown" "" in
  WellFormed /\ Waiting i = true /\ Actionable Next i = true /\
  Wanted (Projected Next i) = "Reset" /\ head progression = Some "Reset".
Proof.
  intros i. split; [exact tokens_WellFormed |].
  apply (unset_Intent_projects_to_Reset tokens_WellFormed "node-a" "").
Defined.

Lemma Reset_origin_witness :
  let i := intent_of "RebootUpdate" "PrepareUpdate" "Error" in
  WellFormed /\ Wanted (Reset Next i) = "Reset" /\
  Active (Reset Next i) = "Unknown" /\ State (Reset Next i) = "Unknown".
Proof.
  intros i. split; [exact tokens_WellFormed |].
  apply (Reset_origin tokens_WellFormed i).
Defined.

Lemma Projected_frame_witness :
  let i := intent_of "Stabilize" "Reset" "busy" in
  WellFormed /\ State i <> "" /\ State i <> "Unknown" /\
  Active (Projected Next i) = "Reset" /\
  State (Projected Next i) = "busy" /\
  UpdateAvailable (Projected Next i) = "" /\
  NodeName (Projected Next i) = "node-a".
Proof.
  intros i. split; [exact tokens_WellFormed |].
  split; [done |]. split; [done |].
  apply (Projected_frame tokens_WellFormed Next i); done.
Defined.

Lemma Waiting_iff_and_errored_scenario_witness :
  let i := intent_of "RebootUpdate" "PrepareUpdate" "Error" in
  WellFormed /\ Errored i = true /\ Waiting i = true /\ Stuck Next i = true.
Proof.
  intros i. split; [exact tokens_WellFormed |].
  apply (proj1 (Waiting_iff_and_errored_scenario tokens_WellFormed) "node-a" "").
Defined.

Lemma unset_Intent_Realized_witness :
  WellFormed /\ Realized (intent_of "Unknown" "Unknown" "") = true.
Proof.
  split; [exact tokens_WellFormed |].
  apply (unset_Intent_Realized tokens_WellFormed "node-a" "").
Defined.

Lemma unknown_state_projectActive_witness :
  let i := intent_of "PerformUpdate" "PrepareUpdate" "Unknown" in
  WellFormed /\ (State i = "" \/ State i = "Unknown") /\
  Wanted (projectActive Next i) = "Reset" /\
  (Wanted i <> "Reset" -> Stuck Next i = true).
Proof.
  intros i.
  assert (State i = "" \/ State i = "Unknown") as Hu by (by right).
  split; [exact tokens_WellFormed |]. split; [exact Hu |].
  apply (unknown_state_projectActive tokens_WellFormed i Hu).
Defined.

(** ** The further properties on concrete inputs *)

Lemma Clone_copies_every_field_witness :
  let i := intent_of "PerformUpdate" "PrepareUpdate" "busy" in
  WellFormed /\ Clone i = i.
Proof.
  intros i. split; [exact tokens_WellFormed |].
  apply (Clone_copies_every_field tokens_WellFormed i).
Defined.

Lemma Given_missing_state_witness :
  WellFormed /\
  GetAnnotations bare_node !! NodeActionActiveState = None /\
  State (Given bare_node) = "" /\
  inUnknownState (Given bare_node) = true /\
  Waiting (Given bare_node) = true /\
  Errored (Given bare_node) = false /\
  Actionable Next (Given bare_node) = true.
Proof.
  assert (GetAnnotations bare_node !! NodeActionActiveState = None) as Hmiss
    by (vm_compute; reflexivity).
  split; [exact tokens_WellFormed |]. split; [exact Hmiss |].
  apply (Given_missing_state tokens_WellFormed Next bare_node Hmiss).
Defined.

Lemma Given_no_annotations_witness :
  WellFormed /\ GetAnnotations fresh_node = ∅ /\
  Given fresh_node = {| NodeName := "node-c"; Wanted := ""; Active := "";
                        State := ""; UpdateAvailable := "" |} /\
  Realized (Given fresh_node) = true /\
  Actionable Next (Given fresh_node) = true.
Proof.
  split; [exact tokens_WellFormed |]. split; [reflexivity |].
  exact (Given_no_annotations tokens_WellFormed Next fresh_node eq_refl).
Defined.

Lemma GetLabels_subseteq_GetAnnotations_witness :
  let i := intent_of "PerformUpdate" "PrepareUpdate" "busy" in
  WellFormed /\
  Intent_GetLabels i ⊆ Intent_GetAnnotations i /\
  size (Intent_GetAnnotations i) = 4 /\
  size (Intent_GetLabels i) = 1.
Proof.
  intros i. split; [exact tokens_WellFormed |].
  apply (GetLabels_subseteq_GetAnnotations tokens_WellFormed i).
Defined.

Lemma Realized_iff_witness :
  let i := intent_of "Stabilize" "Stabilize" "Ready" in
  WellFormed /\
  (Realized i = true <->
   Wanted i = Active i /\
   (State i = "Ready" \/ State i = "" \/ State i = "Unknown")).
Proof.
  intros i. split; [exact tokens_WellFormed |].
  apply (Realized_iff tokens_WellFormed i).
Defined.

Lemma Errored_Waiting_not_Realized_witness :
  let i := intent_of "RebootUpdate" "PrepareUpdate" "Error" in
  Errored i = true /\ Waiting i = true /\ Realized i = false.
Proof.
  intros i.
  assert (Errored i = true) as He by (vm_compute; reflexivity).
  split; [exact He |]. apply (Errored_Waiting_not_Realized i He).
Defined.

Lemma InProgress_not_Stuck_witness :
  let i := intent_of "Stabilize" "Reset" "busy" in
  InProgress Next i = true /\ Realized i = false /\ Stuck Next i = false.
Proof.
  intros i.
  assert (InProgress Next i = true) as Hp by (vm_compute; reflexivity).
  split; [exact Hp |]. apply (InProgress_not_Stuck Next i Hp).
Defined.

Lemma Terminal_known_not_Actionable_witness :
  let i := intent_of "RebootUpdate" "RebootUpdate" "Ready" in
  WellFormed /\ Terminal Next i = true /\ inUnknownState i = false /\
  Stuck Next i = false /\ Actionable Next i = false.
Proof.
  intros i.
  assert (Terminal Next i = true) as Ht by (vm_compute; reflexivity).
  assert (inUnknownState i = false) as Hk by (vm_compute; reflexivity).
  split; [exact tokens_WellFormed |]. split; [exact Ht |].
  split; [exact Hk |].
  apply (Terminal_known_not_Actionable tokens_WellFormed Next i Ht Hk).
Defined.

Lemma Projected_unknown_is_Reset_witness :
  let i := intent_of "PerformUpdate" "PrepareUpdate" "" in
  WellFormed /\ inUnknownState i = true /\
  Projected Next i = Reset Next i.
Proof.
  intros i.
  assert (inUnknownState i = true) as Hu by (vm_compute; reflexivity).
  split; [exact tokens_WellFormed |]. split; [exact Hu |].
  apply (Projected_unknown_is_Reset tokens_WellFormed Next i Hu).
Defined.

Lemma Reset_idempotent_witness :
  let i := intent_of "PerformUpdate" "PrepareUpdate" "Error" in
  WellFormed /\
  Reset Next (Reset Next i) = Reset Next i /\
  Projected Next (Reset Next i) = Reset Next i.
Proof.
  intros i. split; [exact tokens_WellFormed |].
  apply (Reset_idempotent tokens_WellFormed Next i).
Defined.

Lemma Reset_result_Stuck_iff_witness :
  let i := intent_of "PerformUpdate" "PrepareUpdate" "Error" in
  WellFormed /\
  Waiting (Reset Next i) = true /\
  (Stuck Next (Reset Next i) = true <-> fst (Next "Unknown") <> "Unknown").
Proof.
  intros i. split; [exact tokens_WellFormed |].
  apply (Reset_result_Stuck_iff tokens_WellFormed Next i).
Defined.

Lemma Projected_Reset_keep_identity_witness :
  let i := {| NodeName := "node-a"; Wanted := "Stabilize";
              Active := "Reset"; State := "";
              UpdateAvailable := "Available" |} in
  WellFormed /\
  NodeName (Projected Next i) = "node-a" /\
  UpdateAvailable (Projected Next i) = "Available" /\
  HasUpdateAvailable (Projected Next i) = HasUpdateAvailable i /\
  NodeName (Reset Next i) = "node-a" /\
  UpdateAvailable (Reset Next i) = "Available" /\
  HasUpdateAvailable (Reset Next i) = HasUpdateAvailable i.
Proof.
  intros i. split; [exact tokens_WellFormed |].
  apply (Projected_Reset_keep_identity tokens_WellFormed Next i).
Defined.

Lemma predicates_ignore_identity_witness :
  let i := intent_of "Stabilize" "Reset" "busy" in
  let j := {| NodeName := "node-z"; Wanted := "Stabilize";
              Active := "Reset"; State := "busy";
              UpdateAvailable := "Available" |} in
  WellFormed /\
  Wanted i = Wanted j /\ Active i = Active j /\ State i = State j /\
  Waiting i = Waiting j /\
  Realized i = Realized j /\
  InProgress Next i = InProgress Next j /\
  Stuck Next i = Stuck Next j /\
  Terminal Next i = Terminal Next j /\
  Actionable Next i = Actionable Next j.
Proof.
  intros i j. split; [exact tokens_WellFormed |].
  split; [reflexivity |]. split; [reflexivity |]. split; [reflexivity |].
  apply (predicates_ignore_identity tokens_WellFormed Next i j);
    reflexivity.
Defined.

Lemma Realized_Stuck_false_iff_witness :
  let i := intent_of "RebootUpdate" "RebootUpdate" "Ready" in
  WellFormed /\ Realized i = true /\
  (Stuck Next i = false <->
   fst (Next (if inUnknownState i then "Unknown" else Wanted i)) = Wanted i).
Proof.
  intros i.
  assert (Realized i = true) as Hr by (vm_compute; reflexivity).
  split; [exact tokens_WellFormed |]. split; [exact Hr |].
  apply (Realized_Stuck_false_iff tokens_WellFormed Next i Hr).
Defined.
